(** * Force Read Mode: a shallow embedding of [src/main.ts]

    The plugin is a single layout-change handler ([onLayoutChange]), an
    enable/disable command ([toggleCommand]), the settings load
    ([loadSettings]) and the settings panel ([ForceReadModeSettingTab.display]).
    JavaScript objects are modelled as association lists (insertion order kept,
    as object spread keeps it); the host (Obsidian) is modelled only as far as
    the plugin touches it: a list of workspace leaves whose view state is an
    object that [setViewState] replaces.

    A JavaScript string (a path, the text of a text area) is modelled by its
    UTF-8 encoding, a Rocq [string] of bytes. Equality, [startsWith],
    [split('\n')] and "is empty" read the same on the encoding as on the
    UTF-16 text; [trim] recognises the encodings of the white space code
    points that [String.prototype.trim] removes. *)

From Stdlib Require Import String Ascii List Bool Lia.
Import ListNotations.
Open Scope string_scope.
Open Scope list_scope.
#[local] Set Warnings "-register-all".

(** ** JavaScript values and objects *)
Module JS.

Inductive jsval : Type :=
| JNull
| JBool (b : bool)
| JStr (s : string)
| JArr (xs : list jsval)
| JObj (fields : list (string * jsval)).

Definition jsobj := list (string * jsval).

(** Property read [o[k]]; [None] is [undefined]. *)
Fixpoint get (o : jsobj) (k : string) : option jsval :=
  match o with
  | [] => None
  | (k', v) :: t => if String.eqb k k' then Some v else get t k
  end.

(** Property definition inside an object literal after a spread:
    [{...o, k: v}] keeps the position of an existing [k], otherwise appends. *)
Fixpoint set (o : jsobj) (k : string) (v : jsval) : jsobj :=
  match o with
  | [] => [(k, v)]
  | (k', v') :: t => if String.eqb k k' then (k', v) :: t else (k', v') :: set t k v
  end.

(** [Object.assign(target, source)]: every own property of [source], in order,
    is written into [target]. *)
Definition assign (target source : jsobj) : jsobj :=
  fold_left (fun acc kv => set acc (fst kv) (snd kv)) source target.

(** [Object.assign(target, source)] where [source] may be [null]/[undefined]
    (skipped, as the language does). *)
Definition assign_opt (target : jsobj) (source : option jsobj) : jsobj :=
  match source with
  | None => target
  | Some s => assign target s
  end.

Lemma get_set_same (o : jsobj) (k : string) (v : jsval) : get (set o k v) k = Some v.
Proof.
  induction o as [|[k' v'] t IH]; simpl.
  - rewrite String.eqb_refl. reflexivity.
  - destruct (String.eqb k k') eqn:E; simpl.
    + rewrite E. reflexivity.
    + rewrite E. exact IH.
Qed.

Lemma get_set_other (o : jsobj) (k k2 : string) (v : jsval) :
  k2 <> k -> get (set o k v) k2 = get o k2.
Proof.
  intros Hne. induction o as [|[k' v'] t IH]; simpl.
  - destruct (String.eqb k2 k) eqn:E; [apply String.eqb_eq in E; congruence | reflexivity].
  - destruct (String.eqb k k') eqn:E; simpl.
    + apply String.eqb_eq in E; subst k'.
      destruct (String.eqb k2 k) eqn:E2; [apply String.eqb_eq in E2; congruence | reflexivity].
    + destruct (String.eqb k2 k'); [reflexivity | exact IH].
Qed.

Lemma set_set (o : jsobj) (k : string) (v : jsval) : set (set o k v) k v = set o k v.
Proof.
  induction o as [|[k' v'] t IH]; simpl.
  - rewrite String.eqb_refl. reflexivity.
  - destruct (String.eqb k k') eqn:E; simpl; rewrite E.
    + reflexivity.
    + rewrite IH. reflexivity.
Qed.

End JS.
Import JS.

(** ** Settings ([ForceReadModePluginSettings], [DEFAULT_SETTINGS]) *)
Record Settings : Type := mkSettings {
  targetFolderPaths : list string;
  targetFilePaths : list string;
  restoreSourceMode : bool
}.

(** [DEFAULT_SETTINGS] as the object literal of lines 10-14. *)
Definition DEFAULT_SETTINGS : jsobj :=
  [("targetFolderPaths", JArr []);
   ("targetFilePaths", JArr []);
   ("restoreSourceMode", JBool false)].

(** [loadSettings]: [Object.assign({}, DEFAULT_SETTINGS, await this.loadData())];
    [loadData] yields [null] ([None]) when nothing was ever persisted. *)
Definition loadSettings (loaded : option jsobj) : jsobj :=
  assign_opt (assign [] DEFAULT_SETTINGS) loaded.

Fixpoint strings_of (xs : list jsval) : option (list string) :=
  match xs with
  | [] => Some []
  | JStr s :: t => match strings_of t with Some l => Some (s :: l) | None => None end
  | _ :: _ => None
  end.

(** The typed view of the settings object that the rest of the plugin reads
    (defined when each field has the type the interface declares). *)
Definition settings_of_obj (o : jsobj) : option Settings :=
  match get o "targetFolderPaths", get o "targetFilePaths", get o "restoreSourceMode" with
  | Some (JArr fs), Some (JArr ps), Some (JBool b) =>
      match strings_of fs, strings_of ps with
      | Some fs', Some ps' => Some (mkSettings fs' ps' b)
      | _, _ => None
      end
  | _, _, _ => None
  end.

(** [saveSettings] persists the settings object verbatim. *)
Definition obj_of_settings (s : Settings) : jsobj :=
  [("targetFolderPaths", JArr (map JStr s.(targetFolderPaths)));
   ("targetFilePaths", JArr (map JStr s.(targetFilePaths)));
   ("restoreSourceMode", JBool s.(restoreSourceMode))].

(** ** The host's workspace leaves *)
Record Leaf : Type := mkLeaf {
  view_is_MarkdownView : bool;      (** [leaf.view instanceof MarkdownView] *)
  view_file : option string;        (** [leaf.view.file] ([file.path]) *)
  viewState : jsobj                 (** what [leaf.getViewState()] returns *)
}.

(** Host behaviour of [leaf.setViewState(vs)]: the leaf's view state becomes
    [vs]; its view and file are the host's and stay as they are. *)
Definition setViewState (l : Leaf) (vs : jsobj) : Leaf :=
  mkLeaf l.(view_is_MarkdownView) l.(view_file) vs.

(** The view mode as the host reads it: [viewState.state.mode]. *)
Definition mode_of (vs : jsobj) : option jsval :=
  match get vs "state" with
  | Some (JObj st) => get st "mode"
  | _ => None
  end.

(** ** [onLayoutChange] (src/main.ts, lines 52-99) *)

(** [s.startsWith(prefix)] *)
Fixpoint startsWith (s prefix : string) {struct prefix} : bool :=
  match prefix, s with
  | EmptyString, _ => true
  | String c p', String d s' => Ascii.eqb c d && startsWith s' p'
  | String _ _, EmptyString => false
  end.

(** [xs.includes(x)] on strings *)
Definition includes (xs : list string) (x : string) : bool :=
  existsb (fun y => String.eqb y x) xs.

(** The state object written by [setViewState]:
    [{...leaf.getViewState(), state: { mode: m }}]. *)
Definition forced_state (vs : jsobj) (m : string) : jsobj :=
  set vs "state" (JObj [("mode", JStr m)]).

(** The decision taken for one leaf inside [leaves.forEach]: the mode passed
    to [setViewState], or [None] when the callback returns without a call. *)
Definition leaf_decision (s : Settings) (l : Leaf) : option string :=
  if negb l.(view_is_MarkdownView) then None else
  match l.(view_file) with
  | None => None
  | Some file_path =>
      let isExactMatch := includes s.(targetFilePaths) file_path in
      let isInTargetFolder :=
        existsb (fun path => startsWith file_path path) s.(targetFolderPaths) in
      if isExactMatch || isInTargetFolder then Some "preview"
      else if s.(restoreSourceMode) then Some "source"
      else None
  end.

(** A [setViewState] call: the index of the leaf in [getLeavesOfType('markdown')]
    and the state object passed. *)
Definition Call := (nat * jsobj)%type.

(** [leaves.forEach(...)]: the leaves afterwards and the calls issued, in order. *)
Fixpoint forEach_leaves (s : Settings) (i : nat) (leaves : list Leaf)
  : list Leaf * list Call :=
  match leaves with
  | [] => ([], [])
  | l :: rest =>
      let '(rest', calls) := forEach_leaves s (S i) rest in
      match leaf_decision s l with
      | Some m =>
          let vs := forced_state l.(viewState) m in
          (setViewState l vs :: rest', (i, vs) :: calls)
      | None => (l :: rest', calls)
      end
  end.

(** The plugin instance's fields that the handlers read and write. *)
Record Plugin : Type := mkPlugin {
  settings : Settings;
  isEnabled : bool;
  commands : list (string * string);   (** registered command id and name *)
  notices : list string                (** notices shown, most recent first *)
}.

Definition onLayoutChange (p : Plugin) (leaves : list Leaf) : list Leaf * list Call :=
  if negb p.(isEnabled) then (leaves, [])
  else forEach_leaves p.(settings) 0 leaves.

(** ** [toggleCommand] (src/main.ts, lines 39-49) *)
Definition toggle_command_id : string := "toggle-force-read-mode".

(** Host behaviour of [addCommand]: a command registered under an id that is
    already registered replaces it. *)
Fixpoint register (cmds : list (string * string)) (id name : string) : list (string * string) :=
  match cmds with
  | [] => [(id, name)]
  | (id', n') :: t => if String.eqb id id' then (id', name) :: t else (id', n') :: register t id name
  end.

Fixpoint command_name (cmds : list (string * string)) (id : string) : option string :=
  match cmds with
  | [] => None
  | (id', n) :: t => if String.eqb id id' then Some n else command_name t id
  end.

Definition toggleCommand (p : Plugin) : Plugin :=
  mkPlugin p.(settings) p.(isEnabled)
    (register p.(commands) toggle_command_id (if p.(isEnabled) then "Disable" else "Enable"))
    p.(notices).

(** The command's [callback]. *)
Definition toggle_callback (p : Plugin) : Plugin :=
  let p1 := mkPlugin p.(settings) (negb p.(isEnabled)) p.(commands) p.(notices) in
  let p2 := mkPlugin p1.(settings) p1.(isEnabled) p1.(commands)
              (String.append "Force Read Mode " (if p1.(isEnabled) then "Enabled" else "Disabled") :: p1.(notices)) in
  toggleCommand p2.

(** [onload]: settings loaded, the class field [isEnabled = true], the toggle
    command registered. The typed plugin exists when the loaded object has the
    field types the settings interface declares. *)
Definition onload (loaded : option jsobj) : option Plugin :=
  match settings_of_obj (loadSettings loaded) with
  | Some s => Some (toggleCommand (mkPlugin s true [] []))
  | None => None
  end.

(** ** The settings panel ([ForceReadModeSettingTab.display]) *)

(** [value.split('\n')] *)
Fixpoint split_nl (s : string) : list string :=
  match s with
  | EmptyString => [EmptyString]
  | String c s' =>
      if Ascii.eqb c "010"%char then EmptyString :: split_nl s'
      else match split_nl s' with
           | h :: t => String c h :: t
           | [] => [String c EmptyString]
           end
  end.

(** The white space and line terminators [String.prototype.trim] removes
    (ECMAScript WhiteSpace and LineTerminator), by their UTF-8 encodings.
    One byte: tab, line feed, vertical tab, form feed, carriage return, space
    (U+0009 to U+000D, U+0020). *)
Definition is_ws1 (a : ascii) : bool :=
  let n := nat_of_ascii a in
  (Nat.leb 9 n && Nat.leb n 13) || Nat.eqb n 32.

(** Two bytes: U+00A0 (no-break space), [C2 A0]. *)
Definition is_ws2 (a b : ascii) : bool :=
  Nat.eqb (nat_of_ascii a) 194 && Nat.eqb (nat_of_ascii b) 160.

(** Three bytes: U+1680 [E1 9A 80]; U+2000 to U+200A [E2 80 80-8A]; U+2028,
    U+2029, U+202F [E2 80 A8/A9/AF]; U+205F [E2 81 9F]; U+3000 [E3 80 80];
    U+FEFF [EF BB BF]. *)
Definition is_ws3 (a b c : ascii) : bool :=
  let x := nat_of_ascii a in
  let y := nat_of_ascii b in
  let z := nat_of_ascii c in
  (Nat.eqb x 225 && Nat.eqb y 154 && Nat.eqb z 128)
  || (Nat.eqb x 226 && Nat.eqb y 128 &&
      ((Nat.leb 128 z && Nat.leb z 138) || Nat.eqb z 168 || Nat.eqb z 169 || Nat.eqb z 175))
  || (Nat.eqb x 226 && Nat.eqb y 129 && Nat.eqb z 159)
  || (Nat.eqb x 227 && Nat.eqb y 128 && Nat.eqb z 128)
  || (Nat.eqb x 239 && Nat.eqb y 187 && Nat.eqb z 191).

(** The bytes left after one leading white space code point, if the text
    starts with one. *)
Definition ws_prefix (l : list ascii) : option (list ascii) :=
  match l with
  | a :: r =>
      if is_ws1 a then Some r else
      match r with
      | b :: r2 =>
          if is_ws2 a b then Some r2 else
          match r2 with
          | c :: r3 => if is_ws3 a b c then Some r3 else None
          | [] => None
          end
      | [] => None
      end
  | [] => None
  end.

(** The same for a trailing white space code point, on the reversed bytes. *)
Definition ws_suffix_rev (l : list ascii) : option (list ascii) :=
  match l with
  | z :: r =>
      if is_ws1 z then Some r else
      match r with
      | y :: r2 =>
          if is_ws2 y z then Some r2 else
          match r2 with
          | x :: r3 => if is_ws3 x y z then Some r3 else None
          | [] => None
          end
      | [] => None
      end
  | [] => None
  end.

(** Strip with [strip] as long as it applies; each step removes at least one
    byte, so [length l] steps suffice. *)
Fixpoint strip_fuel (strip : list ascii -> option (list ascii)) (n : nat) (l : list ascii)
  : list ascii :=
  match n with
  | O => l
  | S n' => match strip l with
            | Some r => strip_fuel strip n' r
            | None => l
            end
  end.

Definition strip_all (strip : list ascii -> option (list ascii)) (l : list ascii) : list ascii :=
  strip_fuel strip (length l) l.

Definition trimStart_bytes (l : list ascii) : list ascii := strip_all ws_prefix l.

Definition trimEnd_bytes (l : list ascii) : list ascii := rev (strip_all ws_suffix_rev (rev l)).

(** [path.trim()] *)
Definition trim (s : string) : string :=
  string_of_list_ascii (trimEnd_bytes (trimStart_bytes (list_ascii_of_string s))).

(** [value.split('\n').map(path => path.trim()).filter(path => path.length > 0)] *)
Definition parse_paths (value : string) : list string :=
  filter (fun path => Nat.ltb 0 (String.length path)) (map trim (split_nl value)).

(** [onChange] of the folder-path text area (lines 132-136): the new settings,
    and the object handed to [saveData]. *)
Definition onChangeTargetFolderPaths (p : Plugin) (value : string) : Plugin * jsobj :=
  let s := p.(settings) in
  let s' := mkSettings (parse_paths value) s.(targetFilePaths) s.(restoreSourceMode) in
  (mkPlugin s' p.(isEnabled) p.(commands) p.(notices), obj_of_settings s').

(** [onChange] of the file-path text area (lines 145-149). *)
Definition onChangeTargetFilePaths (p : Plugin) (value : string) : Plugin * jsobj :=
  let s := p.(settings) in
  let s' := mkSettings s.(targetFolderPaths) (parse_paths value) s.(restoreSourceMode) in
  (mkPlugin s' p.(isEnabled) p.(commands) p.(notices), obj_of_settings s').

(** [onChange] of the restore-source-mode toggle (lines 157-160). *)
Definition onChangeRestoreSourceMode (p : Plugin) (value : bool) : Plugin * jsobj :=
  let s := p.(settings) in
  let s' := mkSettings s.(targetFolderPaths) s.(targetFilePaths) value in
  (mkPlugin s' p.(isEnabled) p.(commands) p.(notices), obj_of_settings s').

(** [leaves.forEach(...)] for a given per-leaf decision; the two other
    versions of the handler below differ from [forEach_leaves] only in it. *)
Fixpoint forEach_with (decide : Leaf -> option string) (i : nat) (leaves : list Leaf)
  : list Leaf * list Call :=
  match leaves with
  | [] => ([], [])
  | l :: rest =>
      let '(rest', calls) := forEach_with decide (S i) rest in
      match decide l with
      | Some m =>
          let vs := forced_state l.(viewState) m in
          (setViewState l vs :: rest', (i, vs) :: calls)
      | None => (l :: rest', calls)
      end
  end.

(** ** The plugin of [src/unnamed/part_000]: exact file paths and the toggle
    command, no [restoreSourceMode]. *)
Module Part000.

Record ForceReadModePluginSettings : Type := mkSettings {
  targetFolderPaths : list string;
  targetFilePaths : list string
}.

(** The forEach callback of lines 60-88. *)
Definition leaf_decision (s : ForceReadModePluginSettings) (l : Leaf) : option string :=
  if negb l.(view_is_MarkdownView) then None else
  match l.(view_file) with
  | None => None
  | Some file_path =>
      let isExactMatch := includes s.(targetFilePaths) file_path in
      let isInTargetFolder :=
        existsb (fun path => startsWith file_path path) s.(targetFolderPaths) in
      if isExactMatch || isInTargetFolder then Some "preview" else None
  end.

(** [onLayoutChange], lines 50-89. *)
Definition onLayoutChange (s : ForceReadModePluginSettings) (isEnabled : bool)
  (leaves : list Leaf) : list Leaf * list Call :=
  if negb isEnabled then (leaves, [])
  else forEach_with (leaf_decision s) 0 leaves.

End Part000.

(** ** The older plugin kept in [src/main.ts], lines 164-266: folder paths
    only, no enable flag. *)
Module Legacy.

(** The forEach callback of lines 199-225. *)
Definition leaf_decision (targetFolderPaths : list string) (l : Leaf) : option string :=
  if negb l.(view_is_MarkdownView) then None else
  match l.(view_file) with
  | None => None
  | Some file_path =>
      let isInTargetFolder :=
        existsb (fun path => startsWith file_path path) targetFolderPaths in
      if negb isInTargetFolder then None else Some "preview"
  end.

(** [onLayoutChange], lines 194-226. *)
Definition onLayoutChange (targetFolderPaths : list string) (leaves : list Leaf)
  : list Leaf * list Call :=
  forEach_with (leaf_decision targetFolderPaths) 0 leaves.

End Legacy.

(** A line feed, and the panel input [a/b\n\na/c\n  \n] of the spec. *)
Definition nl : string := String "010"%char EmptyString.

Definition sample_input : string :=
  String.concat nl ["a/b"; ""; "a/c"; "  "; ""].

Example sample_input_chars :
  list_ascii_of_string sample_input =
  ["a"; "/"; "b"; "010"; "010"; "a"; "/"; "c"; "010"; " "; " "; "010"]%char.
Proof. reflexivity. Qed.

(** ** Claim-level predicates *)

(** [forces p leaves i m]: in the pass [onLayoutChange p leaves], the [i]-th
    leaf receives exactly one [setViewState] call, whose object is its previous
    view state with [state] set to [{mode: m}], and ends up in mode [m]. *)
Definition forces (p : Plugin) (leaves : list Leaf) (i : nat) (m : string) : Prop :=
  exists l, nth_error leaves i = Some l /\
    (forall vs, In (i, vs) (snd (onLayoutChange p leaves)) <-> vs = forced_state l.(viewState) m) /\
    nth_error (fst (onLayoutChange p leaves)) i = Some (setViewState l (forced_state l.(viewState) m)) /\
    mode_of (forced_state l.(viewState) m) = Some (JStr m).

(** [untouched p leaves i]: no [setViewState] call on the [i]-th leaf, which
    stays as it was. *)
Definition untouched (p : Plugin) (leaves : list Leaf) (i : nat) : Prop :=
  exists l, nth_error leaves i = Some l /\
    (forall vs, ~ In (i, vs) (snd (onLayoutChange p leaves))) /\
    nth_error (fst (onLayoutChange p leaves)) i = Some l.

(** A field of the nested [state] object of a view state. *)
Definition state_field (vs : jsobj) (k : string) : option jsval :=
  match get vs "state" with
  | Some (JObj st) => get st k
  | _ => None
  end.

(** "Only the mode is overridden, every other view-state datum preserved". *)
Definition preserves_all_but_mode (old new : jsobj) : Prop :=
  (forall k, k <> "state" -> get new k = get old k) /\
  (forall k, k <> "mode" -> state_field new k = state_field old k).

(** ** Lemmas on the reconciler *)
Section Reconciler.

Variable s : Settings.

Definition step_leaf (l : Leaf) : Leaf :=
  match leaf_decision s l with
  | Some m => setViewState l (forced_state l.(viewState) m)
  | None => l
  end.

Lemma forEach_leaves_fst (j : nat) (ls : list Leaf) :
  fst (forEach_leaves s j ls) = map step_leaf ls.
Proof.
  revert j; induction ls as [|a ls IH]; intros j; simpl; [reflexivity|].
  specialize (IH (S j)).
  destruct (forEach_leaves s (S j) ls) as [r c]; simpl in IH; subst r.
  change (map step_leaf (a :: ls)) with (step_leaf a :: map step_leaf ls).
  destruct (leaf_decision s a) eqn:E; simpl; f_equal; unfold step_leaf; rewrite E; reflexivity.
Qed.

Lemma forEach_leaves_calls_ge (j k : nat) (vs : jsobj) (ls : list Leaf) :
  In (k, vs) (snd (forEach_leaves s j ls)) -> j <= k.
Proof.
  revert j; induction ls as [|a ls IH]; intros j Hin; simpl in Hin; [contradiction|].
  specialize (IH (S j)).
  destruct (forEach_leaves s (S j) ls) as [r c]; simpl in *.
  destruct (leaf_decision s a); simpl in Hin.
  - destruct Hin as [Heq | Hin]; [inversion Heq; lia | specialize (IH Hin); lia].
  - specialize (IH Hin); lia.
Qed.

Lemma forEach_leaves_calls (j i : nat) (vs : jsobj) (ls : list Leaf) :
  In (j + i, vs) (snd (forEach_leaves s j ls)) <->
  exists l m, nth_error ls i = Some l /\ leaf_decision s l = Some m /\
              vs = forced_state l.(viewState) m.
Proof.
  revert j i; induction ls as [|a ls IH]; intros j i; simpl.
  - split; [contradiction|]. intros (l & m & H & _). destruct i; discriminate.
  - pose proof (forEach_leaves_calls_ge (S j) (j + i) vs ls) as Hge.
    specialize (IH (S j)).
    destruct (forEach_leaves s (S j) ls) as [r c]; simpl in *.
    destruct i as [|i'].
    + split.
      * intros Hin.
        destruct (leaf_decision s a) as [m|] eqn:Ed; simpl in Hin.
        -- destruct Hin as [Heq | Hin]; [inversion Heq; subst vs; exists a, m; auto | apply Hge in Hin; lia].
        -- apply Hge in Hin; lia.
      * intros (l & m & Hl & Hd & Hvs). inversion Hl; subst l vs.
        rewrite Hd. left. f_equal. lia.
    + replace (j + S i') with (S j + i') by lia.
      cbn [nth_error]. rewrite <- IH.
      destruct (leaf_decision s a); simpl; [|tauto].
      split; [intros [Heq | Hin]; [inversion Heq; lia | exact Hin] | intros Hin; right; exact Hin].
Qed.

Lemma leaf_decision_set (l : Leaf) (vs : jsobj) :
  leaf_decision s (setViewState l vs) = leaf_decision s l.
Proof. reflexivity. Qed.

Lemma leaf_decision_step (l : Leaf) : leaf_decision s (step_leaf l) = leaf_decision s l.
Proof.
  unfold step_leaf. destruct (leaf_decision s l) eqn:E.
  - rewrite leaf_decision_set. exact E.
  - exact E.
Qed.

Lemma forced_state_idem (vs : jsobj) (m : string) :
  forced_state (forced_state vs m) m = forced_state vs m.
Proof. unfold forced_state. apply set_set. Qed.

Lemma step_leaf_idem (l : Leaf) : step_leaf (step_leaf l) = step_leaf l.
Proof.
  unfold step_leaf at 1. rewrite leaf_decision_step.
  unfold step_leaf. destruct (leaf_decision s l) as [m|]; [|reflexivity].
  unfold setViewState; simpl. rewrite forced_state_idem. reflexivity.
Qed.

Lemma forEach_leaves_snd_step (j : nat) (ls : list Leaf) :
  snd (forEach_leaves s j (map step_leaf ls)) = snd (forEach_leaves s j ls).
Proof.
  revert j; induction ls as [|a ls IH]; intros j; simpl; [reflexivity|].
  specialize (IH (S j)).
  destruct (forEach_leaves s (S j) (map step_leaf ls)) as [r1 c1].
  destruct (forEach_leaves s (S j) ls) as [r2 c2]. simpl in IH; subst c2.
  rewrite leaf_decision_step.
  destruct (leaf_decision s a) as [m|] eqn:Ed; simpl; [|reflexivity].
  unfold step_leaf; rewrite Ed; simpl. rewrite forced_state_idem. reflexivity.
Qed.

End Reconciler.

Lemma mode_of_forced (vs : jsobj) (m : string) : mode_of (forced_state vs m) = Some (JStr m).
Proof. unfold mode_of, forced_state. rewrite get_set_same. reflexivity. Qed.

Lemma forces_of_decision (p : Plugin) (leaves : list Leaf) (i : nat) (l : Leaf) (m : string) :
  isEnabled p = true -> nth_error leaves i = Some l ->
  leaf_decision (settings p) l = Some m -> forces p leaves i m.
Proof.
  intros Hen Hl Hd. exists l. unfold onLayoutChange. rewrite Hen. simpl negb. cbv iota.
  split; [exact Hl|]. split; [|split].
  - intros vs. change i with (0 + i) at 1. rewrite forEach_leaves_calls.
    split.
    + intros (l' & m' & Hl' & Hd' & Hvs). rewrite Hl in Hl'. inversion Hl'; subst l'.
      rewrite Hd in Hd'. inversion Hd'; subst m'. exact Hvs.
    + intros ->. eauto.
  - rewrite forEach_leaves_fst, nth_error_map, Hl. simpl.
    unfold step_leaf. rewrite Hd. reflexivity.
  - apply mode_of_forced.
Qed.

Lemma untouched_of_decision (p : Plugin) (leaves : list Leaf) (i : nat) (l : Leaf) :
  isEnabled p = true -> nth_error leaves i = Some l ->
  leaf_decision (settings p) l = None -> untouched p leaves i.
Proof.
  intros Hen Hl Hd. exists l. unfold onLayoutChange. rewrite Hen. simpl negb. cbv iota.
  split; [exact Hl|]. split.
  - intros vs Hin. change i with (0 + i) in Hin. apply forEach_leaves_calls in Hin.
    destruct Hin as (l' & m' & Hl' & Hd' & _). rewrite Hl in Hl'. inversion Hl'; subst l'.
    congruence.
  - rewrite forEach_leaves_fst, nth_error_map, Hl. simpl.
    unfold step_leaf. rewrite Hd. reflexivity.
Qed.

Lemma startsWith_append (P rest : string) : startsWith (String.append P rest) P = true.
Proof.
  induction P as [|c P IH]; simpl; [reflexivity|].
  rewrite Ascii.eqb_refl. exact IH.
Qed.

Lemma includes_In (xs : list string) (x : string) : includes xs x = true <-> In x xs.
Proof.
  unfold includes. rewrite existsb_exists. split.
  - intros (y & Hy & He). apply String.eqb_eq in He. subst y. exact Hy.
  - intros Hx. exists x. split; [exact Hx | apply String.eqb_refl].
Qed.

(** Concrete plugin states and leaves used by the witnesses below. *)
Definition plugin_with (s : Settings) : Plugin := mkPlugin s true [] [].

Definition md_leaf (path : string) (st : jsobj) : Leaf := mkLeaf true (Some path) st.

Definition source_state (path : string) : jsobj :=
  [("type", JStr "markdown");
   ("state", JObj [("file", JStr path); ("mode", JStr "source")])].

(** ** C1: the [setViewState] object *)

(** C1 (as amended). Every [setViewState] call of a pass is on a leaf for
    which the forEach callback decided a mode [m]; its object is the leaf's
    previous view state, shallow-copied, with every top-level field other than
    [state] kept, and its [state] field replaced by the object [{mode: m}]. *)
Theorem C1_state_replaced (p : Plugin) (leaves : list Leaf) (i : nat) (vs : jsobj)
  (Hin : In (i, vs) (snd (onLayoutChange p leaves))) :
  exists l m, nth_error leaves i = Some l /\ leaf_decision (settings p) l = Some m /\
    vs = forced_state l.(viewState) m /\
    (forall k, k <> "state" -> get vs k = get l.(viewState) k) /\
    get vs "state" = Some (JObj [("mode", JStr m)]).
Proof.
  unfold onLayoutChange in Hin. destruct (isEnabled p); simpl in Hin; [|contradiction].
  change i with (0 + i) in Hin. apply forEach_leaves_calls in Hin.
  destruct Hin as (l & m & Hl & Hd & ->).
  exists l, m. repeat split; auto.
  - intros k Hk. unfold forced_state. apply get_set_other. exact Hk.
  - unfold forced_state. apply get_set_same.
Qed.

Definition C1_leaf : Leaf := md_leaf "notes/x.md" (source_state "notes/x.md").

Lemma C1_witness :
  exists l m, nth_error [C1_leaf] 0 = Some l /\
    leaf_decision (settings (plugin_with (mkSettings ["notes"] [] false))) l = Some m /\
    forced_state (viewState C1_leaf) "preview" = forced_state l.(viewState) m /\
    (forall k, k <> "state" -> get (forced_state (viewState C1_leaf) "preview") k = get l.(viewState) k) /\
    get (forced_state (viewState C1_leaf) "preview") "state" = Some (JObj [("mode", JStr m)]).
Proof.
  apply (C1_state_replaced (plugin_with (mkSettings ["notes"] [] false)) [C1_leaf] 0).
  vm_compute. left. reflexivity.
Defined.

(** C1 (as stated, refuted). The claim that every call keeps all of the
    previous view state but the mode fails: a leaf showing [notes/x.md] in
    source mode, under the folder list [["notes"]], receives a state object
    whose nested [state] no longer has its [file] field. *)
Lemma C1_counterexample :
  ~ (forall (p : Plugin) (leaves : list Leaf) (i : nat) (l : Leaf) (vs : jsobj),
       nth_error leaves i = Some l -> In (i, vs) (snd (onLayoutChange p leaves)) ->
       preserves_all_but_mode l.(viewState) vs).
Proof.
  intros H.
  specialize (H (plugin_with (mkSettings ["notes"] [] false)) [C1_leaf] 0 C1_leaf
                (forced_state (viewState C1_leaf) "preview") eq_refl
                ltac:(vm_compute; left; reflexivity)).
  destruct H as [_ H]. specialize (H "file" ltac:(discriminate)).
  vm_compute in H. discriminate H.
Qed.

(** ** C2: folder matching is a bare prefix test *)

(** C2. In a pass of the enabled plugin, a markdown view whose file path
    starts with some configured folder path [P] (as a plain string prefix, so
    also a sibling such as [notes-archive/x.md] of [notes]) is forced to
    read-only preview. *)
Theorem C2_folder_prefix_forces_preview (p : Plugin) (leaves : list Leaf) (i : nat)
  (l : Leaf) (file_path P : string)
  (Hen : isEnabled p = true) (Hl : nth_error leaves i = Some l)
  (Hmd : view_is_MarkdownView l = true) (Hf : view_file l = Some file_path)
  (HP : In P (targetFolderPaths (settings p))) (Hpre : startsWith file_path P = true) :
  forces p leaves i "preview".
Proof.
  apply (forces_of_decision p leaves i l); auto.
  unfold leaf_decision. rewrite Hmd, Hf. simpl negb. cbv iota.
  assert (Hex : existsb (fun path => startsWith file_path path) (targetFolderPaths (settings p)) = true)
    by (apply existsb_exists; exists P; auto).
  rewrite Hex, orb_true_r. reflexivity.
Qed.

Definition notes_settings : Settings := mkSettings ["notes"] [] false.

(** Both [notes/x.md] and [notes-archive/x.md] are forced to preview under the
    folder list [["notes"]]. *)
Lemma C2_witness :
  forces (plugin_with notes_settings)
    [md_leaf "notes/x.md" (source_state "notes/x.md");
     md_leaf "notes-archive/x.md" (source_state "notes-archive/x.md")] 0 "preview" /\
  forces (plugin_with notes_settings)
    [md_leaf "notes/x.md" (source_state "notes/x.md");
     md_leaf "notes-archive/x.md" (source_state "notes-archive/x.md")] 1 "preview".
Proof.
  split.
  - apply (C2_folder_prefix_forces_preview _ _ 0
             (md_leaf "notes/x.md" (source_state "notes/x.md")) "notes/x.md" "notes");
      try reflexivity. simpl. left. reflexivity.
  - apply (C2_folder_prefix_forces_preview _ _ 1
             (md_leaf "notes-archive/x.md" (source_state "notes-archive/x.md"))
             "notes-archive/x.md" "notes");
      try reflexivity. simpl. left. reflexivity.
Defined.

(** ** C3: views matched by neither list *)

(** C3. In a pass of the enabled plugin, a markdown view whose file path
    starts with no configured folder path and is no configured file path gets
    no [setViewState] call when [restoreSourceMode] is false, and is forced to
    editable source when it is true. *)
Theorem C3_unmatched_view (p : Plugin) (leaves : list Leaf) (i : nat)
  (l : Leaf) (file_path : string)
  (Hen : isEnabled p = true) (Hl : nth_error leaves i = Some l)
  (Hmd : view_is_MarkdownView l = true) (Hf : view_file l = Some file_path)
  (Hfolders : forall P, In P (targetFolderPaths (settings p)) -> startsWith file_path P = false)
  (Hfiles : ~ In file_path (targetFilePaths (settings p))) :
  if restoreSourceMode (settings p) then forces p leaves i "source"
  else untouched p leaves i.
Proof.
  assert (Hd : leaf_decision (settings p) l =
               if restoreSourceMode (settings p) then Some "source" else None).
  { unfold leaf_decision. rewrite Hmd, Hf. simpl negb. cbv iota.
    destruct (includes (targetFilePaths (settings p)) file_path) eqn:Ei.
    - apply includes_In in Ei. contradiction.
    - destruct (existsb (fun path => startsWith file_path path) (targetFolderPaths (settings p))) eqn:Ex.
      + apply existsb_exists in Ex. destruct Ex as (P & HP & Hs).
        rewrite (Hfolders P HP) in Hs. discriminate.
      + reflexivity. }
  destruct (restoreSourceMode (settings p)).
  - apply (forces_of_decision p leaves i l); auto.
  - apply (untouched_of_decision p leaves i l); auto.
Qed.

Lemma C3_witness :
  untouched (plugin_with (mkSettings ["notes"] ["todo.md"] false))
    [md_leaf "journal/x.md" (source_state "journal/x.md")] 0 /\
  forces (plugin_with (mkSettings ["notes"] ["todo.md"] true))
    [md_leaf "journal/x.md" (source_state "journal/x.md")] 0 "source".
Proof.
  split.
  - apply (C3_unmatched_view (plugin_with (mkSettings ["notes"] ["todo.md"] false))
             _ 0 (md_leaf "journal/x.md" (source_state "journal/x.md")) "journal/x.md");
      try reflexivity.
    + intros P [<- | []]. reflexivity.
    + intros [H | []]. discriminate H.
  - apply (C3_unmatched_view (plugin_with (mkSettings ["notes"] ["todo.md"] true))
             _ 0 (md_leaf "journal/x.md" (source_state "journal/x.md")) "journal/x.md");
      try reflexivity.
    + intros P [<- | []]. reflexivity.
    + intros [H | []]. discriminate H.
Defined.

(** ** C4: exact file paths *)

(** C4. In a pass of the enabled plugin, a markdown view whose file path is
    an element of [targetFilePaths] is forced to read-only preview, whatever
    the folder list. *)
Theorem C4_exact_file_forces_preview (p : Plugin) (leaves : list Leaf) (i : nat)
  (l : Leaf) (file_path : string)
  (Hen : isEnabled p = true) (Hl : nth_error leaves i = Some l)
  (Hmd : view_is_MarkdownView l = true) (Hf : view_file l = Some file_path)
  (Hin : In file_path (targetFilePaths (settings p))) :
  forces p leaves i "preview".
Proof.
  apply (forces_of_decision p leaves i l); auto.
  unfold leaf_decision. rewrite Hmd, Hf. simpl negb. cbv iota.
  apply includes_In in Hin. rewrite Hin. reflexivity.
Qed.

Lemma C4_witness :
  forces (plugin_with (mkSettings ["notes"] ["journal/x.md"] true))
    [md_leaf "journal/x.md" (source_state "journal/x.md")] 0 "preview".
Proof.
  apply (C4_exact_file_forces_preview _ _ 0
           (md_leaf "journal/x.md" (source_state "journal/x.md")) "journal/x.md");
    try reflexivity.
  simpl. left. reflexivity.
Defined.

(** ** C5: a second pass repeats the first *)

(** C5. Running [onLayoutChange] again on the leaves a first pass left
    behind, with the same plugin state, leaves every leaf as the first pass
    left it and issues the same [setViewState] calls again (there is no
    "already in the right mode" short cut). *)
Theorem C5_second_pass_same (p : Plugin) (leaves : list Leaf) :
  onLayoutChange p (fst (onLayoutChange p leaves)) = onLayoutChange p leaves.
Proof.
  unfold onLayoutChange. destruct (isEnabled p); simpl negb; cbv iota; [|reflexivity].
  apply injective_projections.
  - rewrite !forEach_leaves_fst, map_map.
    apply map_ext. apply step_leaf_idem.
  - rewrite forEach_leaves_fst. apply forEach_leaves_snd_step.
Qed.

(** ** C7: the disabled plugin *)

(** C7. When [isEnabled] is false a pass issues no [setViewState] call and
    leaves every leaf as it is. *)
Theorem C7_disabled_no_calls (p : Plugin) (leaves : list Leaf)
  (Hdis : isEnabled p = false) :
  onLayoutChange p leaves = (leaves, []).
Proof. unfold onLayoutChange. rewrite Hdis. reflexivity. Qed.

Lemma C7_witness :
  onLayoutChange (mkPlugin (mkSettings [""] ["journal/x.md"] true) false [] [])
    [md_leaf "journal/x.md" (source_state "journal/x.md")] =
  ([md_leaf "journal/x.md" (source_state "journal/x.md")], []).
Proof. apply C7_disabled_no_calls. reflexivity. Defined.

(** ** C10: an empty folder path *)

(** C10. If [targetFolderPaths] contains the empty string, every markdown
    view with a file is forced to read-only preview by a pass of the enabled
    plugin ([file.path.startsWith("")] always holds). *)
Theorem C10_empty_folder_matches_all (p : Plugin) (leaves : list Leaf) (i : nat)
  (l : Leaf) (file_path : string)
  (Hen : isEnabled p = true) (Hempty : In "" (targetFolderPaths (settings p)))
  (Hl : nth_error leaves i = Some l)
  (Hmd : view_is_MarkdownView l = true) (Hf : view_file l = Some file_path) :
  forces p leaves i "preview".
Proof.
  apply (forces_of_decision p leaves i l); auto.
  unfold leaf_decision. rewrite Hmd, Hf. simpl negb. cbv iota.
  assert (Hex : existsb (fun path => startsWith file_path path) (targetFolderPaths (settings p)) = true)
    by (apply existsb_exists; exists ""; split; [exact Hempty | destruct file_path; reflexivity]).
  rewrite Hex, orb_true_r. reflexivity.
Qed.

(** Persisted data with an empty folder path, as [loadData] may return it. *)
Definition persisted_empty_folder : jsobj :=
  [("targetFolderPaths", JArr [JStr ""])].

(** The plugin loaded from that data forces an unrelated file to preview. *)
Lemma C10_witness :
  exists q, onload (Some persisted_empty_folder) = Some q /\
    forces q [md_leaf "journal/x.md" (source_state "journal/x.md")] 0 "preview".
Proof.
  eexists. split; [reflexivity|].
  apply (C10_empty_folder_matches_all _ _ 0
           (md_leaf "journal/x.md" (source_state "journal/x.md")) "journal/x.md");
    try reflexivity.
  simpl. left. reflexivity.
Defined.

(** ** C6: the toggle command *)

Lemma command_name_register (cmds : list (string * string)) (id name : string) :
  command_name (register cmds id name) id = Some name.
Proof.
  induction cmds as [|[id' n'] t IH]; simpl.
  - rewrite String.eqb_refl. reflexivity.
  - destruct (String.eqb id id') eqn:E; simpl; rewrite E; [reflexivity | exact IH].
Qed.

(** C6. One invocation of the command flips [isEnabled] and re-registers the
    command under its id with the name ["Disable"] when the flag is now true
    and ["Enable"] when it is false; two invocations give back the flag and
    the settings, so every later pass behaves as before the two toggles. *)
Theorem C6_toggle_twice (p : Plugin) :
  isEnabled (toggle_callback p) = negb (isEnabled p) /\
  command_name (commands (toggle_callback p)) toggle_command_id =
    Some (if isEnabled (toggle_callback p) then "Disable" else "Enable") /\
  isEnabled (toggle_callback (toggle_callback p)) = isEnabled p /\
  settings (toggle_callback (toggle_callback p)) = settings p /\
  (forall leaves, onLayoutChange (toggle_callback (toggle_callback p)) leaves =
                  onLayoutChange p leaves).
Proof.
  split; [reflexivity|]. split.
  - unfold toggle_callback, toggleCommand. simpl. apply command_name_register.
  - assert (He : isEnabled (toggle_callback (toggle_callback p)) = isEnabled p)
      by (simpl; apply negb_involutive).
    assert (Hs : settings (toggle_callback (toggle_callback p)) = settings p) by reflexivity.
    split; [exact He|]. split; [exact Hs|].
    intros leaves. unfold onLayoutChange. rewrite He, Hs. reflexivity.
Qed.

(** ** C8: the settings panel *)

Section Strip.

Variable strip : list ascii -> option (list ascii).
Hypothesis strip_cut : forall l r, strip l = Some r -> exists p, l = p ++ r /\ p <> [].

Lemma strip_shorter (l r : list ascii) : strip l = Some r -> length r < length l.
Proof.
  intros H. destruct (strip_cut l r H) as (p & -> & Hp).
  rewrite length_app. destruct p; [congruence | simpl; lia].
Qed.

Lemma strip_fuel_done (n : nat) (l : list ascii) :
  length l <= n -> strip (strip_fuel strip n l) = None.
Proof.
  revert l; induction n as [|n IH]; intros l Hl; simpl.
  - destruct (strip l) as [r|] eqn:E; [|reflexivity].
    apply strip_shorter in E. lia.
  - destruct (strip l) as [r|] eqn:E; [|exact E].
    apply IH. apply strip_shorter in E. lia.
Qed.

Lemma strip_fuel_fix (n : nat) (l : list ascii) : strip l = None -> strip_fuel strip n l = l.
Proof. intros H. destruct n; simpl; [reflexivity|]. rewrite H. reflexivity. Qed.

Lemma strip_all_done (l : list ascii) : strip (strip_all strip l) = None.
Proof. apply strip_fuel_done. lia. Qed.

Lemma strip_all_idem (l : list ascii) : strip_all strip (strip_all strip l) = strip_all strip l.
Proof. apply strip_fuel_fix, strip_all_done. Qed.

Lemma strip_fuel_suffix (n : nat) (l : list ascii) : exists p, l = p ++ strip_fuel strip n l.
Proof.
  revert l; induction n as [|n IH]; intros l; simpl; [exists []; reflexivity|].
  destruct (strip l) as [r|] eqn:E; [|exists []; reflexivity].
  destruct (strip_cut l r E) as (p & -> & _). destruct (IH r) as (q & Hq).
  exists (p ++ q). rewrite <- app_assoc, <- Hq. reflexivity.
Qed.

End Strip.

Lemma ws_prefix_cut (l r : list ascii) : ws_prefix l = Some r -> exists p, l = p ++ r /\ p <> [].
Proof.
  intros H. destruct l as [|a l1]; [discriminate|]. simpl in H.
  destruct (is_ws1 a); [injection H as <-; exists [a]; split; [reflexivity | discriminate]|].
  destruct l1 as [|b l2]; [discriminate|].
  destruct (is_ws2 a b); [injection H as <-; exists [a; b]; split; [reflexivity | discriminate]|].
  destruct l2 as [|c l3]; [discriminate|].
  destruct (is_ws3 a b c); [|discriminate].
  injection H as <-. exists [a; b; c]. split; [reflexivity | discriminate].
Qed.

Lemma ws_suffix_rev_cut (l r : list ascii) :
  ws_suffix_rev l = Some r -> exists p, l = p ++ r /\ p <> [].
Proof.
  intros H. destruct l as [|z l1]; [discriminate|]. simpl in H.
  destruct (is_ws1 z); [injection H as <-; exists [z]; split; [reflexivity | discriminate]|].
  destruct l1 as [|y l2]; [discriminate|].
  destruct (is_ws2 y z); [injection H as <-; exists [z; y]; split; [reflexivity | discriminate]|].
  destruct l2 as [|x l3]; [discriminate|].
  destruct (is_ws3 x y z); [|discriminate].
  injection H as <-. exists [z; y; x]. split; [reflexivity | discriminate].
Qed.

(** Whether the text starts with white space depends only on its first
    code point. *)
Lemma ws_prefix_app (p q r : list ascii) : ws_prefix p = Some r -> ws_prefix (p ++ q) = Some (r ++ q).
Proof.
  intros H. destruct p as [|a p1]; [discriminate|]. simpl in H |- *.
  destruct (is_ws1 a); [injection H as <-; reflexivity|].
  destruct p1 as [|b p2]; [discriminate|]. simpl.
  destruct (is_ws2 a b); [injection H as <-; reflexivity|].
  destruct p2 as [|c p3]; [discriminate|]. simpl.
  destruct (is_ws3 a b c); [injection H as <-; reflexivity | discriminate].
Qed.

Lemma trimEnd_bytes_prefix (l : list ascii) : exists q, l = trimEnd_bytes l ++ q.
Proof.
  unfold trimEnd_bytes, strip_all.
  destruct (strip_fuel_suffix ws_suffix_rev ws_suffix_rev_cut (length (rev l)) (rev l)) as (p & Hp).
  exists (rev p). rewrite <- rev_app_distr, <- Hp, rev_involutive. reflexivity.
Qed.

Lemma trimStart_bytes_suffix (l : list ascii) : exists p, l = p ++ trimStart_bytes l.
Proof. apply (strip_fuel_suffix ws_prefix ws_prefix_cut). Qed.

Lemma trim_bytes_idem (l : list ascii) :
  trimEnd_bytes (trimStart_bytes (trimEnd_bytes (trimStart_bytes l))) =
  trimEnd_bytes (trimStart_bytes l).
Proof.
  set (x := trimStart_bytes l).
  assert (Hx : ws_prefix (trimEnd_bytes x) = None).
  { destruct (trimEnd_bytes_prefix x) as (q & Hq).
    destruct (ws_prefix (trimEnd_bytes x)) as [r|] eqn:E; [|reflexivity].
    apply (ws_prefix_app _ q) in E. rewrite <- Hq in E.
    unfold x, trimStart_bytes in E. rewrite strip_all_done in E; [discriminate | exact ws_prefix_cut]. }
  unfold trimStart_bytes at 1, strip_all. rewrite strip_fuel_fix by exact Hx.
  unfold trimEnd_bytes. rewrite rev_involutive.
  rewrite strip_all_idem by exact ws_suffix_rev_cut. reflexivity.
Qed.

Lemma trim_idem (s : string) : trim (trim s) = trim s.
Proof. unfold trim. rewrite list_ascii_of_string_of_list_ascii, trim_bytes_idem. reflexivity. Qed.

(** [trim] removes the non-ASCII white space of [String.prototype.trim] too:
    a leading no-break space, a trailing ideographic space, a byte order mark. *)
Example trim_unicode_ws :
  trim (string_of_list_ascii [ascii_of_nat 194; ascii_of_nat 160; "a"%char;
                              ascii_of_nat 227; ascii_of_nat 128; ascii_of_nat 128]) = "a" /\
  trim (string_of_list_ascii [ascii_of_nat 239; ascii_of_nat 187; ascii_of_nat 191;
                              " "%char; "a"%char; "009"%char]) = "a" /\
  trim (string_of_list_ascii [ascii_of_nat 226; ascii_of_nat 128; ascii_of_nat 168]) = "".
Proof. vm_compute. repeat split. Qed.

(** A line made of a no-break space and a path, then a line holding only a
    no-break space, is stored as that one path. *)
Example parse_paths_nbsp :
  parse_paths (string_of_list_ascii
    [ascii_of_nat 194; ascii_of_nat 160; "a"%char; "/"%char; "b"%char; "010"%char;
     ascii_of_nat 194; ascii_of_nat 160]) = ["a/b"].
Proof. vm_compute. reflexivity. Qed.

(** C8. Editing a path list in the panel stores the raw text split on line
    feeds, each line trimmed, the empty ones dropped, in input order; the new
    settings are what is persisted. Every stored path is non-empty and already
    trimmed, and the input [a/b\n\na/c\n  \n] yields [["a/b"; "a/c"]]. *)
Theorem C8_panel_path_lists (p : Plugin) (value : string) :
  settings (fst (onChangeTargetFolderPaths p value)) =
    mkSettings (filter (fun path => Nat.ltb 0 (String.length path)) (map trim (split_nl value)))
               (targetFilePaths (settings p)) (restoreSourceMode (settings p)) /\
  snd (onChangeTargetFolderPaths p value) = obj_of_settings (settings (fst (onChangeTargetFolderPaths p value))) /\
  settings (fst (onChangeTargetFilePaths p value)) =
    mkSettings (targetFolderPaths (settings p))
               (filter (fun path => Nat.ltb 0 (String.length path)) (map trim (split_nl value)))
               (restoreSourceMode (settings p)) /\
  snd (onChangeTargetFilePaths p value) = obj_of_settings (settings (fst (onChangeTargetFilePaths p value))) /\
  (forall x, In x (parse_paths value) -> x <> EmptyString /\ trim x = x) /\
  parse_paths sample_input = ["a/b"; "a/c"].
Proof.
  split; [reflexivity|]. split; [reflexivity|]. split; [reflexivity|]. split; [reflexivity|].
  split; [|reflexivity].
  intros x Hx. unfold parse_paths in Hx. apply filter_In in Hx. destruct Hx as [Hm Hlen].
  apply in_map_iff in Hm. destruct Hm as (y & <- & _).
  split.
  - intros He. rewrite He in Hlen. discriminate.
  - apply trim_idem.
Qed.

(** ** C9: loading the settings *)

Lemma get_app (o1 o2 : jsobj) (k : string) :
  get (o1 ++ o2) k = match get o1 k with Some v => Some v | None => get o2 k end.
Proof.
  induction o1 as [|[k' v'] t IH]; simpl; [reflexivity|].
  destruct (String.eqb k k'); [reflexivity | exact IH].
Qed.

Lemma get_set (o : jsobj) (k k2 : string) (v : jsval) :
  get (set o k v) k2 = if String.eqb k2 k then Some v else get o k2.
Proof.
  destruct (String.eqb k2 k) eqn:E.
  - apply String.eqb_eq in E. subst k2. apply get_set_same.
  - apply get_set_other. intros ->. rewrite String.eqb_refl in E. discriminate.
Qed.

(** [Object.assign]: the last write of a key wins. *)
Lemma get_assign (t src : jsobj) (k : string) :
  get (assign t src) k = match get (rev src) k with Some v => Some v | None => get t k end.
Proof.
  revert t; induction src as [|[k' v'] src IH]; intros t; simpl; [reflexivity|].
  unfold assign in IH |- *. simpl. rewrite IH, get_app. simpl.
  destruct (get (rev src) k); [reflexivity|].
  rewrite get_set. destruct (String.eqb k k'); reflexivity.
Qed.

Lemma get_notin (o : jsobj) (k : string) : ~ In k (map fst o) -> get o k = None.
Proof.
  induction o as [|[k' v'] t IH]; simpl; intros Hn; [reflexivity|].
  destruct (String.eqb k k') eqn:E.
  - apply String.eqb_eq in E. subst. exfalso. apply Hn. left. reflexivity.
  - apply IH. intros H. apply Hn. right. exact H.
Qed.

Lemma get_rev (o : jsobj) (k : string) : NoDup (map fst o) -> get (rev o) k = get o k.
Proof.
  induction o as [|[k' v'] t IH]; simpl; intros Hnd; [reflexivity|].
  inversion Hnd as [|? ? Hnotin Hnd']; subst.
  rewrite get_app, IH by exact Hnd'. simpl.
  destruct (String.eqb k k') eqn:E.
  - apply String.eqb_eq in E. subst k'. rewrite get_notin by exact Hnotin. reflexivity.
  - destruct (get t k); reflexivity.
Qed.

(** C9. With nothing persisted, loading yields exactly [DEFAULT_SETTINGS]
    (both path lists empty, [restoreSourceMode] false) and the loaded plugin
    starts enabled, as it does after every load; for a persisted object, a key
    it has takes its persisted value verbatim and a key it lacks keeps the
    default. *)
Theorem C9_load_settings (o : jsobj) (k : string) (Hwf : NoDup (map fst o)) :
  loadSettings None = DEFAULT_SETTINGS /\
  settings_of_obj (loadSettings None) = Some (mkSettings [] [] false) /\
  onload None = Some (mkPlugin (mkSettings [] [] false) true [(toggle_command_id, "Disable")] []) /\
  (forall loaded, match onload loaded with Some q => isEnabled q = true | None => True end) /\
  get (loadSettings (Some o)) k =
    match get o k with Some v => Some v | None => get DEFAULT_SETTINGS k end.
Proof.
  split; [reflexivity|]. split; [reflexivity|]. split; [reflexivity|]. split.
  - intros loaded. unfold onload.
    destruct (settings_of_obj (loadSettings loaded)); reflexivity.
  - unfold loadSettings, assign_opt. rewrite get_assign, get_rev by exact Hwf. reflexivity.
Qed.

Lemma C9_witness :
  loadSettings None = DEFAULT_SETTINGS /\
  settings_of_obj (loadSettings None) = Some (mkSettings [] [] false) /\
  onload None = Some (mkPlugin (mkSettings [] [] false) true [(toggle_command_id, "Disable")] []) /\
  (forall loaded, match onload loaded with Some q => isEnabled q = true | None => True end) /\
  get (loadSettings (Some [("restoreSourceMode", JBool true)])) "restoreSourceMode" =
    match get [("restoreSourceMode", JBool true)] "restoreSourceMode" with
    | Some v => Some v | None => get DEFAULT_SETTINGS "restoreSourceMode" end.
Proof.
  apply C9_load_settings. simpl. constructor; [intros [] | constructor].
Defined.

(** * Further properties of the code *)

Lemma forEach_leaves_with (s : Settings) (j : nat) (ls : list Leaf) :
  forEach_leaves s j ls = forEach_with (leaf_decision s) j ls.
Proof.
  revert j; induction ls as [|a ls IH]; intros j; simpl; [reflexivity|].
  rewrite IH. reflexivity.
Qed.

Lemma forEach_with_ext (d1 d2 : Leaf -> option string) (j : nat) (ls : list Leaf) :
  (forall l, d1 l = d2 l) -> forEach_with d1 j ls = forEach_with d2 j ls.
Proof.
  intros Hd. revert j; induction ls as [|a ls IH]; intros j; simpl; [reflexivity|].
  rewrite IH, Hd. reflexivity.
Qed.

Lemma forEach_with_none (d : Leaf -> option string) (j : nat) (ls : list Leaf) :
  (forall l, d l = None) -> forEach_with d j ls = (ls, []).
Proof.
  intros Hd. revert j; induction ls as [|a ls IH]; intros j; simpl; [reflexivity|].
  rewrite IH, Hd. reflexivity.
Qed.

(** The [part_000] handler is the [main.ts] handler with [restoreSourceMode]
    off: same leaves afterwards, same calls. *)
Theorem part000_is_main_without_restore (folders files : list string) (en : bool)
  (cmds : list (string * string)) (ns : list string) (leaves : list Leaf) :
  Part000.onLayoutChange (Part000.mkSettings folders files) en leaves =
  onLayoutChange (mkPlugin (mkSettings folders files false) en cmds ns) leaves.
Proof.
  unfold Part000.onLayoutChange, onLayoutChange. simpl.
  destruct en; simpl; [|reflexivity].
  rewrite forEach_leaves_with. apply forEach_with_ext.
  intros l. unfold Part000.leaf_decision, leaf_decision. simpl.
  destruct (view_is_MarkdownView l); simpl; [|reflexivity].
  destruct (view_file l); [|reflexivity].
  destruct (_ || _); reflexivity.
Qed.

(** The older folder-only handler is the current one, enabled, with no exact
    file paths and [restoreSourceMode] off. *)
Theorem legacy_is_main_folders_only (folders : list string)
  (cmds : list (string * string)) (ns : list string) (leaves : list Leaf) :
  Legacy.onLayoutChange folders leaves =
  onLayoutChange (mkPlugin (mkSettings folders [] false) true cmds ns) leaves.
Proof.
  unfold Legacy.onLayoutChange, onLayoutChange. simpl.
  rewrite forEach_leaves_with. apply forEach_with_ext.
  intros l. unfold Legacy.leaf_decision, leaf_decision. simpl.
  destruct (view_is_MarkdownView l); simpl; [|reflexivity].
  destruct (view_file l); [|reflexivity].
  destruct (existsb _ _); reflexivity.
Qed.

Lemma forEach_leaves_calls_lt (s : Settings) (j k : nat) (vs : jsobj) (ls : list Leaf) :
  In (k, vs) (snd (forEach_leaves s j ls)) -> k < j + length ls.
Proof.
  revert j; induction ls as [|a ls IH]; intros j Hin; simpl in Hin; [contradiction|].
  specialize (IH (S j)).
  destruct (forEach_leaves s (S j) ls) as [r c]; simpl in *.
  destruct (leaf_decision s a); simpl in Hin.
  - destruct Hin as [Heq | Hin]; [inversion Heq; lia | specialize (IH Hin); lia].
  - specialize (IH Hin); lia.
Qed.

Lemma forEach_leaves_calls_nodup (s : Settings) (j : nat) (ls : list Leaf) :
  NoDup (map fst (snd (forEach_leaves s j ls))).
Proof.
  revert j; induction ls as [|a ls IH]; intros j; simpl; [constructor|].
  pose proof (fun k vs => forEach_leaves_calls_ge s (S j) k vs ls) as Hge.
  specialize (IH (S j)).
  destruct (forEach_leaves s (S j) ls) as [r c]; simpl in *.
  destruct (leaf_decision s a); simpl; [|exact IH].
  constructor; [|exact IH].
  intros Hin. apply in_map_iff in Hin. destruct Hin as ([k vs] & Hk & Hin).
  simpl in Hk; subst k. apply Hge in Hin. lia.
Qed.

(** A pass calls [setViewState] at most once per leaf, and only on leaves it
    was given: the call indices are distinct and below the number of leaves. *)
Theorem pass_at_most_one_call_per_leaf (p : Plugin) (leaves : list Leaf) :
  NoDup (map fst (snd (onLayoutChange p leaves))) /\
  (forall k vs, In (k, vs) (snd (onLayoutChange p leaves)) -> k < length leaves) /\
  length (snd (onLayoutChange p leaves)) <= length leaves.
Proof.
  assert (Hnd : NoDup (map fst (snd (onLayoutChange p leaves)))).
  { unfold onLayoutChange. destruct (isEnabled p); simpl; [apply forEach_leaves_calls_nodup | constructor]. }
  assert (Hlt : forall k vs, In (k, vs) (snd (onLayoutChange p leaves)) -> k < length leaves).
  { intros k vs. unfold onLayoutChange. destruct (isEnabled p); simpl; [|contradiction].
    apply (forEach_leaves_calls_lt _ 0). }
  split; [exact Hnd|]. split; [exact Hlt|].
  assert (Hle : length (map fst (snd (onLayoutChange p leaves))) <= length (seq 0 (length leaves))).
  { apply NoDup_incl_length; [exact Hnd|].
    intros k Hk. apply in_map_iff in Hk. destruct Hk as ([k' vs] & <- & Hin).
    apply in_seq. split; [lia|]. simpl. apply Hlt in Hin. lia. }
  rewrite length_map, length_seq in Hle. exact Hle.
Qed.

(** Views that are not markdown views, or have no file, are never touched,
    whatever the settings and the enable flag. *)
Theorem non_markdown_or_fileless_untouched (p : Plugin) (leaves : list Leaf) (i : nat) (l : Leaf)
  (Hl : nth_error leaves i = Some l)
  (Hskip : view_is_MarkdownView l = false \/ view_file l = None) :
  untouched p leaves i.
Proof.
  destruct (isEnabled p) eqn:Hen.
  - apply (untouched_of_decision p leaves i l Hen Hl).
    unfold leaf_decision. destruct Hskip as [-> | ->]; [reflexivity|].
    destruct (view_is_MarkdownView l); reflexivity.
  - exists l. rewrite (C7_disabled_no_calls p leaves Hen). simpl.
    split; [exact Hl|]. split; [intros vs []|exact Hl].
Qed.

Lemma non_markdown_or_fileless_untouched_witness :
  untouched (plugin_with (mkSettings [""] [] true))
    [mkLeaf false (Some "notes/x.md") (source_state "notes/x.md");
     mkLeaf true None [("type", JStr "empty")]] 1.
Proof.
  apply (non_markdown_or_fileless_untouched _ _ 1 (mkLeaf true None [("type", JStr "empty")])).
  - reflexivity.
  - right. reflexivity.
Defined.

(** With [restoreSourceMode] off, every call of a pass forces preview: the
    plugin never switches a view to source mode. *)
Theorem no_restore_only_preview (p : Plugin) (leaves : list Leaf)
  (Hoff : restoreSourceMode (settings p) = false) :
  forall i vs, In (i, vs) (snd (onLayoutChange p leaves)) ->
    mode_of vs = Some (JStr "preview").
Proof.
  intros i vs Hin.
  unfold onLayoutChange in Hin. destruct (isEnabled p); simpl in Hin; [|contradiction].
  change i with (0 + i) in Hin. apply forEach_leaves_calls in Hin.
  destruct Hin as (l & m & _ & Hd & ->).
  unfold leaf_decision in Hd. rewrite Hoff in Hd.
  destruct (negb _); [discriminate|]. destruct (view_file l); [|discriminate].
  destruct (_ || _); [|discriminate]. inversion Hd; subst m. apply mode_of_forced.
Qed.

Lemma no_restore_only_preview_witness :
  mode_of (forced_state (viewState C1_leaf) "preview") = Some (JStr "preview").
Proof.
  apply (no_restore_only_preview (plugin_with notes_settings) [C1_leaf] eq_refl 0).
  vm_compute. left. reflexivity.
Defined.

(** With the default settings (no paths, [restoreSourceMode] off) a pass
    changes nothing and makes no call, enabled or not. *)
Theorem default_settings_inert (p : Plugin) (leaves : list Leaf)
  (Hdef : settings p = mkSettings [] [] false) :
  onLayoutChange p leaves = (leaves, []).
Proof.
  unfold onLayoutChange. destruct (isEnabled p); simpl; [|reflexivity].
  rewrite forEach_leaves_with. apply forEach_with_none.
  intros l. unfold leaf_decision. rewrite Hdef. simpl.
  destruct (view_is_MarkdownView l); simpl; [|reflexivity].
  destruct (view_file l); reflexivity.
Qed.

Lemma default_settings_inert_witness :
  onLayoutChange (plugin_with (mkSettings [] [] false)) [C1_leaf] = ([C1_leaf], []).
Proof. apply default_settings_inert. reflexivity. Defined.

(** ** Saving and loading the settings *)

Lemma strings_of_map (xs : list string) : strings_of (map JStr xs) = Some xs.
Proof. induction xs as [|x xs IH]; simpl; [reflexivity|]. rewrite IH. reflexivity. Qed.

(** What [saveSettings] persists is loaded back by [loadSettings] as the same
    settings. *)
Theorem save_load_roundtrip (s : Settings) :
  settings_of_obj (loadSettings (Some (obj_of_settings s))) = Some s.
Proof.
  assert (Hnd : NoDup (map fst (obj_of_settings s))).
  { simpl. constructor; [simpl; intuition discriminate|].
    constructor; [simpl; intuition discriminate|].
    constructor; [simpl; tauto | constructor]. }
  unfold settings_of_obj, loadSettings, assign_opt.
  rewrite !get_assign, !get_rev by exact Hnd. simpl.
  rewrite !strings_of_map. destruct s; reflexivity.
Qed.

(** ** The settings panel: displayed text and edits *)

(** No line feed in a string. *)
Fixpoint no_nl (s : string) : bool :=
  match s with
  | EmptyString => true
  | String c t => negb (Ascii.eqb c "010"%char) && no_nl t
  end.

Definition prepend (x : string) (l : list string) : list string :=
  match l with
  | h :: t => String.append x h :: t
  | [] => [x]
  end.

Lemma split_nl_nonempty (s : string) : split_nl s <> [].
Proof.
  induction s as [|c s IH]; simpl; [discriminate|].
  destruct (Ascii.eqb c "010"%char); [discriminate|].
  destruct (split_nl s); discriminate.
Qed.

Lemma append_empty (x : string) : String.append x EmptyString = x.
Proof. induction x as [|c x IH]; simpl; [reflexivity|]. rewrite IH. reflexivity. Qed.

Lemma split_nl_app (x r : string) :
  no_nl x = true -> split_nl (String.append x r) = prepend x (split_nl r).
Proof.
  induction x as [|c x IH]; simpl; intros Hx.
  - pose proof (split_nl_nonempty r). destruct (split_nl r); [congruence | reflexivity].
  - apply andb_true_iff in Hx. destruct Hx as [Hc Hx].
    apply negb_true_iff in Hc. rewrite Hc, (IH Hx).
    pose proof (split_nl_nonempty r). destruct (split_nl r); [congruence | reflexivity].
Qed.

Lemma split_nl_concat (xs : list string) :
  xs <> [] -> (forall x, In x xs -> no_nl x = true) ->
  split_nl (String.concat nl xs) = xs.
Proof.
  induction xs as [|x xs IH]; intros Hne Hx; [congruence|].
  destruct xs as [|y ys].
  - simpl. rewrite <- (append_empty x) at 1.
    rewrite split_nl_app by (apply Hx; left; reflexivity). simpl.
    rewrite append_empty. reflexivity.
  - change (String.concat nl (x :: y :: ys))
      with (String.append x (String.append nl (String.concat nl (y :: ys)))).
    rewrite split_nl_app by (apply Hx; left; reflexivity).
    assert (Hnl : forall r, split_nl (String.append nl r) = EmptyString :: split_nl r)
      by reflexivity.
    rewrite Hnl, IH by (discriminate || (intros z Hz; apply Hx; right; exact Hz)).
    simpl. rewrite append_empty. reflexivity.
Qed.

Lemma filter_keep_all {A : Type} (f : A -> bool) (xs : list A) :
  (forall x, In x xs -> f x = true) -> filter f xs = xs.
Proof.
  induction xs as [|x xs IH]; simpl; intros Hf; [reflexivity|].
  rewrite (Hf x (or_introl eq_refl)), IH; [reflexivity|].
  intros y Hy. apply Hf. right. exact Hy.
Qed.

(** The text area shows a path list as [join('\n')]; parsing that text gives
    the list back when its paths are non-empty, trimmed and free of line
    feeds. *)
Theorem display_parse_roundtrip (xs : list string)
  (Hxs : forall x, In x xs -> x <> EmptyString /\ trim x = x /\ no_nl x = true) :
  parse_paths (String.concat nl xs) = xs.
Proof.
  destruct xs as [|x0 xs0] eqn:E; [reflexivity|]. rewrite <- E in *.
  unfold parse_paths.
  rewrite split_nl_concat by (subst; discriminate || (intros x Hx; apply Hxs; exact Hx)).
  rewrite (map_ext_in trim (fun x => x)) by (intros x Hx; apply Hxs; exact Hx).
  rewrite map_id. apply filter_keep_all.
  intros x Hx. destruct (Hxs x Hx) as [Hne _].
  destruct x; [congruence | reflexivity].
Qed.

Lemma display_parse_roundtrip_witness :
  parse_paths (String.concat nl ["notes"; "journal/2024"]) = ["notes"; "journal/2024"].
Proof.
  apply display_parse_roundtrip.
  intros x [<- | [<- | []]]; repeat split; (discriminate || reflexivity).
Defined.

Lemma split_nl_no_nl (v : string) : forall y, In y (split_nl v) -> no_nl y = true.
Proof.
  induction v as [|c v IH]; simpl; intros y Hy.
  - destruct Hy as [<- | []]. reflexivity.
  - destruct (Ascii.eqb c "010"%char) eqn:Ec.
    + destruct Hy as [<- | Hy]; [reflexivity | apply IH; exact Hy].
    + destruct (split_nl v) as [|h t] eqn:Es; [exfalso; exact (split_nl_nonempty v Es)|].
      destruct Hy as [<- | Hy].
      * simpl. rewrite Ec. apply IH. left. reflexivity.
      * apply IH. right. exact Hy.
Qed.

Lemma no_nl_bytes (s : string) :
  no_nl s = forallb (fun c => negb (Ascii.eqb c "010"%char)) (list_ascii_of_string s).
Proof. induction s as [|c s IH]; simpl; [reflexivity|]. rewrite IH. reflexivity. Qed.

Lemma trim_no_nl (s : string) : no_nl s = true -> no_nl (trim s) = true.
Proof.
  rewrite !no_nl_bytes. unfold trim. rewrite list_ascii_of_string_of_list_ascii.
  set (l := list_ascii_of_string s).
  destruct (trimStart_bytes_suffix l) as (p & Hp).
  destruct (trimEnd_bytes_prefix (trimStart_bytes l)) as (q & Hq).
  intros H. rewrite Hp, Hq in H. rewrite !forallb_app in H.
  apply andb_true_iff in H as [_ H]. apply andb_true_iff in H as [H _]. exact H.
Qed.

(** Every path the panel stores is non-empty, trimmed and free of line
    feeds, so re-displaying the stored list and parsing it again gives the
    same list: submitting the shown text unchanged is a no-op. *)
Theorem panel_reparse_stable (p : Plugin) (value : string) :
  let p1 := fst (onChangeTargetFolderPaths p value) in
  fst (onChangeTargetFolderPaths p1 (String.concat nl (targetFolderPaths (settings p1)))) = p1 /\
  let p2 := fst (onChangeTargetFilePaths p value) in
  fst (onChangeTargetFilePaths p2 (String.concat nl (targetFilePaths (settings p2)))) = p2.
Proof.
  assert (Hre : parse_paths (String.concat nl (parse_paths value)) = parse_paths value).
  { apply display_parse_roundtrip. intros x Hx.
    unfold parse_paths in Hx. apply filter_In in Hx. destruct Hx as [Hm Hlen].
    apply in_map_iff in Hm. destruct Hm as (y & <- & Hy).
    split; [intros He; rewrite He in Hlen; discriminate|].
    split; [apply trim_idem|].
    apply trim_no_nl, (split_nl_no_nl value), Hy. }
  simpl. unfold onChangeTargetFolderPaths, onChangeTargetFilePaths. simpl.
  rewrite Hre. split; reflexivity.
Qed.


(** ** The toggle command over time *)

Lemma even_S (n : nat) : Nat.even (S n) = negb (Nat.even n).
Proof.
  induction n as [|n IH]; [reflexivity|].
  rewrite IH. simpl. destruct (Nat.even n); reflexivity.
Qed.

(** After [onload] and [n] invocations of the command, the flag is on exactly
    when [n] is even, the registry holds the one command, named after the
    current flag, [n] notices have been shown, and the settings are as loaded. *)
Theorem toggles_after_onload (loaded : option jsobj) (q : Plugin)
  (Hq : onload loaded = Some q) (n : nat) :
  isEnabled (Nat.iter n toggle_callback q) = Nat.even n /\
  commands (Nat.iter n toggle_callback q) =
    [(toggle_command_id, if isEnabled (Nat.iter n toggle_callback q) then "Disable" else "Enable")] /\
  length (notices (Nat.iter n toggle_callback q)) = n /\
  settings (Nat.iter n toggle_callback q) = settings q.
Proof.
  unfold onload in Hq. destruct (settings_of_obj (loadSettings loaded)) as [s|]; [|discriminate].
  inversion Hq; subst q. clear Hq.
  induction n as [|n (IHe & IHc & IHn & IHs)].
  - repeat split.
  - change (Nat.iter (S n) toggle_callback (toggleCommand (mkPlugin s true [] [])))
      with (toggle_callback (Nat.iter n toggle_callback (toggleCommand (mkPlugin s true [] [])))).
    set (r := Nat.iter n toggle_callback (toggleCommand (mkPlugin s true [] []))) in *.
    assert (He : isEnabled (toggle_callback r) = Nat.even (S n)).
    { change (isEnabled (toggle_callback r)) with (negb (isEnabled r)).
      rewrite IHe, even_S. reflexivity. }
    split; [exact He|]. split; [|split].
    + unfold toggle_callback, toggleCommand. simpl. rewrite IHc. simpl.
      reflexivity.
    + simpl. rewrite IHn. reflexivity.
    + simpl. exact IHs.
Qed.

Lemma toggles_after_onload_witness :
  isEnabled (Nat.iter 3 toggle_callback (toggleCommand (plugin_with (mkSettings [] [] false)))) = false /\
  commands (Nat.iter 3 toggle_callback (toggleCommand (plugin_with (mkSettings [] [] false)))) =
    [(toggle_command_id, "Enable")].
Proof.
  destruct (toggles_after_onload None
              (toggleCommand (plugin_with (mkSettings [] [] false))) eq_refl 3) as (He & Hc & _).
  split; [exact He|]. rewrite Hc, He. reflexivity.
Defined.

Lemma forEach_leaves_calls_length (s : Settings) (j : nat) (ls : list Leaf) :
  length (snd (forEach_leaves s j ls)) =
  length (filter (fun l => match leaf_decision s l with Some _ => true | None => false end) ls).
Proof.
  revert j; induction ls as [|a ls IH]; intros j; simpl; [reflexivity|].
  specialize (IH (S j)).
  destruct (forEach_leaves s (S j) ls) as [r c]; simpl in *.
  destruct (leaf_decision s a); simpl; rewrite IH; reflexivity.
Qed.

(** With [restoreSourceMode] on, an enabled pass makes one call for every
    markdown view that has a file, and none for the others. *)
Theorem restore_calls_every_file_view (p : Plugin) (leaves : list Leaf)
  (Hen : isEnabled p = true) (Hon : restoreSourceMode (settings p) = true) :
  length (snd (onLayoutChange p leaves)) =
  length (filter (fun l => view_is_MarkdownView l &&
                           match view_file l with Some _ => true | None => false end) leaves).
Proof.
  unfold onLayoutChange. rewrite Hen. simpl negb. cbv iota.
  rewrite forEach_leaves_calls_length. f_equal. apply filter_ext.
  intros l. unfold leaf_decision. rewrite Hon.
  destruct (view_is_MarkdownView l); simpl; [|reflexivity].
  destruct (view_file l); [|reflexivity].
  destruct (_ || _); reflexivity.
Qed.

Lemma restore_calls_every_file_view_witness :
  length (snd (onLayoutChange (plugin_with (mkSettings ["notes"] [] true))
    [C1_leaf; mkLeaf false (Some "a.md") []; mkLeaf true None [];
     md_leaf "journal/x.md" (source_state "journal/x.md")])) = 2.
Proof.
  rewrite (restore_calls_every_file_view (plugin_with (mkSettings ["notes"] [] true)) _ eq_refl eq_refl).
  reflexivity.
Defined.
